(** * geminiService.ts: the image request adapter

    A shallow embedding of [generateOrEditImage] from
    [src/services/geminiService.ts].  The function is asynchronous, talks to
    the Gemini SDK client [ai] and to the console, and funnels every failure
    through one [try]/[catch].  It is embedded as a computation over an
    explicit world (console, requests sent, state of the remote side) whose
    outcome is either a returned value or a thrown JavaScript value. *)

From Stdlib Require Import String Ascii List Bool Arith Lia.
Import ListNotations.
Local Open Scope string_scope.

(** ** JavaScript values that can be thrown *)

(** What a rejected promise or a [throw] can carry.  [catch (error)] only asks
    [error instanceof Error]; every instance of [Error] (or of a subclass such
    as [TypeError]) is represented by its [message]. *)
Inductive JsValue : Type :=
| JsUndefined
| JsNull
| JsBoolean (b : bool)
| JsString (s : string)
| JsObject (fields : list (string * string)).

Inductive Thrown : Type :=
| ErrorInstance (message : string)
| NonError (v : JsValue).

Inductive Outcome (A : Type) : Type :=
| Returned (a : A)
| Threw (e : Thrown).
Arguments Returned {A} a.
Arguments Threw {A} e.

(** ** The SDK's data, with its optional fields

    The records below are the parts of the [@google/genai] response and
    request types that the function touches.  A field the SDK declares with
    [?] is an [option]; the function itself guards [candidates], [content],
    [parts], [inlineData] and [generatedImages] against [undefined], and
    reads [image] unguarded. *)

Module Blob.
Record t : Type := mk { data : option string; mimeType : option string }.
End Blob.

Module Part.
Record t : Type := mk { inlineData : option Blob.t; text : option string }.
End Part.

Module Content.
Record t : Type := mk { parts : option (list Part.t) }.
End Content.

Module Candidate.
Record t : Type := mk { content : option Content.t }.
End Candidate.

Module GenerateContentResponse.
Record t : Type := mk { candidates : option (list Candidate.t) }.
End GenerateContentResponse.

Module Image.
Record t : Type := mk { imageBytes : option string; mimeType : option string }.
End Image.

Module GeneratedImage.
Record t : Type :=
  mk { image : option Image.t; raiFilteredReason : option string }.
End GeneratedImage.

Module GenerateImagesResponse.
Record t : Type := mk { generatedImages : option (list GeneratedImage.t) }.
End GenerateImagesResponse.

Inductive Modality : Type := TEXT | IMAGE | AUDIO.

Module GenerateContentConfig.
Record t : Type := mk { responseModalities : list Modality }.
End GenerateContentConfig.

Module GenerateContentParameters.
Record t : Type :=
  mk { model : string; contents : Content.t; config : GenerateContentConfig.t }.
End GenerateContentParameters.

Module GenerateImagesConfig.
Record t : Type :=
  mk { numberOfImages : nat; outputMimeType : string; aspectRatio : string }.
End GenerateImagesConfig.

Module GenerateImagesParameters.
Record t : Type :=
  mk { model : string; prompt : string; config : GenerateImagesConfig.t }.
End GenerateImagesParameters.

(** The optional second argument of [generateOrEditImage]:
    [image?: { data: string; mimeType: string }]. *)
Module SourceImage.
Record t : Type := mk { data : string; mimeType : string }.
End SourceImage.

(** A request as it leaves the adapter. *)
Inductive ApiCall : Type :=
| CallGenerateContent (params : GenerateContentParameters.t)
| CallGenerateImages (params : GenerateImagesParameters.t).

(** ** JavaScript operators used by the function *)

(** [o?.f]: yields [undefined] when [o] is [undefined]. *)
Definition opt_chain {A B : Type} (o : option A) (f : A -> option B)
  : option B :=
  match o with
  | Some x => f x
  | None => None
  end.
Infix "?." := opt_chain (at level 45, left associativity).

(** [xs[0]] on an array. *)
Definition index0 {A : Type} (xs : list A) : option A :=
  match xs with
  | x :: _ => Some x
  | [] => None
  end.

(** Truthiness of an optional object: an object is truthy, [undefined] is
    not. *)
Definition truthy_object {A : Type} (o : option A) : bool :=
  match o with
  | Some _ => true
  | None => false
  end.

(** Truthiness of an optional string: [undefined] and the empty string are
    falsy. *)
Definition truthy_string (o : option string) : bool :=
  match o with
  | Some s => negb (s =? "")
  | None => false
  end.

(** [`${v}`]: a hole of a template literal prints [undefined] by name. *)
Definition template_hole (v : option string) : string :=
  match v with
  | Some s => s
  | None => "undefined"
  end.

(** The two template literals of the function have this shape. *)
Definition dataUrl (mediaType bytes : string) : string :=
  "data:" ++ mediaType ++ ";base64," ++ bytes.

(** The message V8 gives the [TypeError] raised by reading a property of
    [undefined]. *)
Definition v8_readOfUndefined (property : string) : string :=
  "Cannot read properties of undefined (reading '" ++ property ++ "')".

(** ** The SDK client *)

(** [ai.models.generateContent] and [ai.models.generateImages]: each call
    settles with a response or rejects with a thrown value, and may change
    the remote side. *)
Record GoogleGenAI (NetState : Type) : Type := mkGoogleGenAI {
  generateContent :
    GenerateContentParameters.t -> NetState ->
    Outcome GenerateContentResponse.t * NetState;
  generateImages :
    GenerateImagesParameters.t -> NetState ->
    Outcome GenerateImagesResponse.t * NetState
}.
Arguments generateContent {NetState} _ _ _.
Arguments generateImages {NetState} _ _ _.

Section Adapter.

Variable NetState : Type.

(** [const ai = new GoogleGenAI({ apiKey: process.env.API_KEY })]. *)
Variable ai : GoogleGenAI NetState.

(** The engine's message for reading a property of [undefined]. *)
Variable readOfUndefined : string -> string.

(** ** The world the function runs in *)

Record World : Type := mkWorld {
  console : list (string * Thrown);
  requests : list ApiCall;
  network : NetState
}.

(** The world once [entry] has been written to the console. *)
Definition logged (w : World) (entry : string * Thrown) : World :=
  {| console := console w ++ [entry];
     requests := requests w;
     network := network w |}.

(** The world once [call] has left and the remote side has moved to [net]. *)
Definition sent (w : World) (call : ApiCall) (net : NetState) : World :=
  {| console := console w;
     requests := requests w ++ [call];
     network := net |}.

Definition Async (A : Type) : Type := World -> Outcome A * World.

Definition ret {A : Type} (a : A) : Async A := fun w => (Returned a, w).

Definition throw {A : Type} (e : Thrown) : Async A := fun w => (Threw e, w).

Definition bind {A B : Type} (m : Async A) (k : A -> Async B) : Async B :=
  fun w =>
    match m w with
    | (Returned a, w') => k a w'
    | (Threw e, w') => (Threw e, w')
    end.

Definition try_catch {A : Type} (body : Async A) (handler : Thrown -> Async A)
  : Async A :=
  fun w =>
    match body w with
    | (Returned a, w') => (Returned a, w')
    | (Threw e, w') => handler e w'
    end.

Notation "x <- m ;; k" := (bind m (fun x => k))
  (at level 61, m at next level, right associativity).
Notation "m ;;; k" := (bind m (fun _ => k))
  (at level 61, right associativity).

(** [console.error(label, error)]. *)
Definition console_error (label : string) (error : Thrown) : Async unit :=
  fun w => (Returned tt, logged w (label, error)).

(** [await ai.models.generateContent(params)]. *)
Definition await_generateContent (params : GenerateContentParameters.t)
  : Async GenerateContentResponse.t :=
  fun w =>
    let (settled, net) := generateContent ai params (network w) in
    (settled, sent w (CallGenerateContent params) net).

(** [await ai.models.generateImages(params)]. *)
Definition await_generateImages (params : GenerateImagesParameters.t)
  : Async GenerateImagesResponse.t :=
  fun w =>
    let (settled, net) := generateImages ai params (network w) in
    (settled, sent w (CallGenerateImages params) net).

(** [o.property] without optional chaining: a [TypeError] when [o] is
    [undefined]. *)
Definition read_property {A B : Type}
  (o : option A) (property : string) (f : A -> B) : Async B :=
  match o with
  | Some x => ret (f x)
  | None => throw (ErrorInstance (readOfUndefined property))
  end.

(** ** The function

    Its three shape failures are thrown with the messages
    [API did not return an edited image.] (no edited image produced),
    [API did not return any images.] (no image returned) and
    [Generated image data is empty.] (empty image payload); the [catch]
    block puts [Gemini API Error: ] in front of the message of any [Error]. *)

(** The request of the edit branch (lines 22-33). *)
Definition edit_request (prompt : string) (image : SourceImage.t)
  : GenerateContentParameters.t :=
  {| GenerateContentParameters.model := "gemini-2.5-flash-image";
     GenerateContentParameters.contents :=
       {| Content.parts := Some
            [ {| Part.inlineData :=
                   Some {| Blob.data := Some (SourceImage.data image);
                           Blob.mimeType := Some (SourceImage.mimeType image) |};
                 Part.text := None |};
              {| Part.inlineData := None; Part.text := Some prompt |} ] |};
     GenerateContentParameters.config :=
       {| GenerateContentConfig.responseModalities := [IMAGE] |} |}.

(** The request of the generation branch (lines 45-53). *)
Definition generate_request (prompt : string) : GenerateImagesParameters.t :=
  {| GenerateImagesParameters.model := "imagen-4.0-generate-001";
     GenerateImagesParameters.prompt := prompt;
     GenerateImagesParameters.config :=
       {| GenerateImagesConfig.numberOfImages := 1;
          GenerateImagesConfig.outputMimeType := "image/jpeg";
          GenerateImagesConfig.aspectRatio := "1:1" |} |}.

(** The [try] block (lines 20-65). *)
Definition generateOrEditImage_try
  (prompt : string) (image : option SourceImage.t) : Async string :=
  match image with
  | Some image =>
      response <- await_generateContent (edit_request prompt image) ;;
      let imagePart :=
        GenerateContentResponse.candidates response
          ?. index0 ?. Candidate.content ?. Content.parts
          ?. find (fun p => truthy_object (Part.inlineData p)) in
      match imagePart ?. Part.inlineData with
      | Some inlineData =>
          let base64ImageBytes := Blob.data inlineData in
          ret ("data:" ++ template_hole (Blob.mimeType inlineData)
                 ++ ";base64," ++ template_hole base64ImageBytes)
      | None => throw (ErrorInstance "API did not return an edited image.")
      end
  | None =>
      response <- await_generateImages (generate_request prompt) ;;
      match GenerateImagesResponse.generatedImages response with
      | None | Some [] =>
          throw (ErrorInstance "API did not return any images.")
      | Some (first :: _) =>
          base64ImageBytes <-
            read_property (GeneratedImage.image first) "imageBytes"
              Image.imageBytes ;;
          if negb (truthy_string base64ImageBytes)
          then throw (ErrorInstance "Generated image data is empty.")
          else ret ("data:image/jpeg;base64,"
                      ++ template_hole base64ImageBytes)
      end
  end.

(** The [catch] block (lines 66-72). *)
Definition generateOrEditImage_catch (error : Thrown) : Async string :=
  console_error "Error generating content with Gemini API:" error ;;;
  match error with
  | ErrorInstance message =>
      throw (ErrorInstance ("Gemini API Error: " ++ message))
  | NonError _ =>
      throw (ErrorInstance
               "An unknown error occurred while generating the content.")
  end.

Definition generateOrEditImage
  (prompt : string) (image : option SourceImage.t) : Async string :=
  try_catch (generateOrEditImage_try prompt image) generateOrEditImage_catch.

End Adapter.

Arguments mkWorld {NetState} _ _ _.
Arguments console {NetState} _.
Arguments requests {NetState} _.
Arguments network {NetState} _.
Arguments logged {NetState} _ _.
Arguments sent {NetState} _ _ _.
Arguments generateOrEditImage_try {NetState} _ _ _ _ _.
Arguments generateOrEditImage_catch {NetState} _ _.
Arguments generateOrEditImage {NetState} _ _ _ _ _.

(** ** Simulated transports

    The remote side counts the calls it has served; the answers do not depend
    on the count. *)
Definition mock_ai
  (content : Outcome GenerateContentResponse.t)
  (images : Outcome GenerateImagesResponse.t) : GoogleGenAI nat :=
  {| generateContent := fun _ served => (content, S served);
     generateImages := fun _ served => (images, S served) |}.

Definition fresh_world : World nat :=
  {| console := []; requests := []; network := 0 |}.

Definition no_content : Outcome GenerateContentResponse.t :=
  Returned {| GenerateContentResponse.candidates := None |}.

Definition no_images : Outcome GenerateImagesResponse.t :=
  Returned {| GenerateImagesResponse.generatedImages := None |}.

(** An edit response with one candidate holding the given parts. *)
Definition content_with (ps : list Part.t) : Outcome GenerateContentResponse.t :=
  Returned
    {| GenerateContentResponse.candidates :=
         Some [ {| Candidate.content :=
                     Some {| Content.parts := Some ps |} |} ] |}.

Definition text_part (s : string) : Part.t :=
  {| Part.inlineData := None; Part.text := Some s |}.

Definition inline_part (d m : option string) : Part.t :=
  {| Part.inlineData := Some {| Blob.data := d; Blob.mimeType := m |};
     Part.text := None |}.

(** A generation response with the given entries. *)
Definition images_with (gs : list GeneratedImage.t)
  : Outcome GenerateImagesResponse.t :=
  Returned {| GenerateImagesResponse.generatedImages := Some gs |}.

Definition generated (bytes mime : option string) : GeneratedImage.t :=
  {| GeneratedImage.image :=
       Some {| Image.imageBytes := bytes; Image.mimeType := mime |};
     GeneratedImage.raiFilteredReason := None |}.

(** An entry the provider filtered out: a reason and no image. *)
Definition filtered (why : string) : GeneratedImage.t :=
  {| GeneratedImage.image := None;
     GeneratedImage.raiFilteredReason := Some why |}.

Definition photo : SourceImage.t :=
  {| SourceImage.data := "aGVsbG8="; SourceImage.mimeType := "image/png" |}.

(** * App.tsx: the component that calls the adapter

    [App] keeps five pieces of React state and changes them in its event
    handlers.  A JavaScript string is taken as its sequence of code units,
    each below 256. *)

(** ** String methods used by the component *)

(** White space as [String.prototype.trim] sees it, among the code units
    below 256: tab, line feed, vertical tab, form feed, carriage return,
    space and no-break space. *)
Definition is_whitespace (c : ascii) : bool :=
  match nat_of_ascii c with
  | 9 | 10 | 11 | 12 | 13 | 32 | 160 => true
  | _ => false
  end.

Fixpoint trimStart (s : string) : string :=
  match s with
  | EmptyString => EmptyString
  | String c rest => if is_whitespace c then trimStart rest else s
  end.

Fixpoint trimEnd (s : string) : string :=
  match s with
  | EmptyString => EmptyString
  | String c rest =>
      let kept := trimEnd rest in
      if is_whitespace c && (kept =? "") then EmptyString else String c kept
  end.

(** [s.trim()]. *)
Definition trim (s : string) : string := trimEnd (trimStart s).

(** [s.startsWith(p)]. *)
Definition startsWith (s p : string) : bool := String.prefix p s.

(** [s.split(sep)] for a separator of one code unit: the pieces between the
    separators, at least one piece. *)
Fixpoint split (sep : ascii) (s : string) : list string :=
  match s with
  | EmptyString => [EmptyString]
  | String c rest =>
      if Ascii.eqb c sep then EmptyString :: split sep rest
      else
        match split sep rest with
        | piece :: pieces => String c piece :: pieces
        | [] => [String c EmptyString]
        end
  end.

(** [xs[1]] on an array. *)
Definition index1 {A : Type} (xs : list A) : option A := nth_error xs 1.

(** The message V8 gives the [TypeError] raised by reading a property of
    [null]. *)
Definition v8_readOfNull (property : string) : string :=
  "Cannot read properties of null (reading '" ++ property ++ "')".

(** The part of a DOM [File] that the component reads. *)
Module File.
Record t : Type := mk { type : string }.
End File.

(** The value of the [uploadedImage] state when it is not [null]. *)
Module UploadedImage.
Record t : Type := mk { data : string; mimeType : string; preview : string }.
End UploadedImage.

Module App.

(** The five [useState] cells. *)
Record State : Type := mkState {
  prompt : string;
  uploadedImage : option UploadedImage.t;
  generatedImageUrl : option string;
  isLoading : bool;
  error : option string
}.

Definition initialPrompt : string :=
"A fierce athletic woman adjusting her fingerless training 
gloves [Main Subject], leaning slightly forward with an intense 
gaze into the camera [Pose or Action], inside a dimly lit 
modern boxing gym with red and black punching bags in the 
background [Scene/Environment], photographed from a tight 
waist-up angle for dramatic intensity [Image Angle or 
Perspective], cinematic sportswear portrait style [Image 
Style], wearing a black cropped compression top, matching 
mesh-detailed leggings, and sleek black boxing shoes 
[Adjectives and Physical Details], single overhead spotlight 
creating high contrast with deep shadows on the background 
[Texture and Lighting], black, deep red, and matte steel 
[Specific Colors], inspired by premium fight sports brand 
campaigns [Art Styles and Eras], no blur, no lighting artifacts, 
no facial distortion [Negative Prompts], captured with a Nikon 
Z9 and 50mm f/1.2 S lens [Camera Model and Lens].".

Definition initialState : State :=
  {| prompt := initialPrompt;
     uploadedImage := None;
     generatedImageUrl := None;
     isLoading := false;
     error := None |}.

Definition setPrompt (v : string) (s : State) : State :=
  {| prompt := v;
     uploadedImage := uploadedImage s;
     generatedImageUrl := generatedImageUrl s;
     isLoading := isLoading s;
     error := error s |}.

Definition setUploadedImage (v : option UploadedImage.t) (s : State) : State :=
  {| prompt := prompt s;
     uploadedImage := v;
     generatedImageUrl := generatedImageUrl s;
     isLoading := isLoading s;
     error := error s |}.

Definition setGeneratedImageUrl (v : option string) (s : State) : State :=
  {| prompt := prompt s;
     uploadedImage := uploadedImage s;
     generatedImageUrl := v;
     isLoading := isLoading s;
     error := error s |}.

Definition setIsLoading (v : bool) (s : State) : State :=
  {| prompt := prompt s;
     uploadedImage := uploadedImage s;
     generatedImageUrl := generatedImageUrl s;
     isLoading := v;
     error := error s |}.

Definition setError (v : option string) (s : State) : State :=
  {| prompt := prompt s;
     uploadedImage := uploadedImage s;
     generatedImageUrl := generatedImageUrl s;
     isLoading := isLoading s;
     error := v |}.

(** ** [handleImageUpload] (lines 103-122) *)

(** What the handler has done when it returns: the state, the file whose
    reading it started and the value it left in the file input. *)
Record Upload : Type := mkUpload {
  next : State;
  started : option File.t;
  inputValue : string
}.

Definition handleImageUpload (files : option (list File.t)) (s : State)
  : Upload :=
  let file := files ?. index0 in
  match file with
  | Some f =>
      if startsWith (File.type f) "image/"
      then {| next := setError None s; started := Some f; inputValue := "" |}
      else
        {| next :=
             setError
               (Some "Please upload a valid image file (e.g., PNG, JPG, WEBP).")
               s;
           started := None;
           inputValue := "" |}
  | None => {| next := s; started := None; inputValue := "" |}
  end.

(** What [reader.onloadend] (lines 108-115) does for a reader started on
    [file] and ended with [reader.result] equal to [result], where [null] is
    [None].  [dataUrl.split(',')[1]] is [undefined] when the result has no
    comma, and the object then passed to [setUploadedImage] is not of the
    state's declared type. *)
Inductive LoadEnded : Type :=
| Stored (u : UploadedImage.t)
| StoredWithoutData (mimeType preview : string)
| Uncaught (e : Thrown).

Definition onloadend (readOfNull : string -> string)
  (file : File.t) (result : option string) : LoadEnded :=
  match result with
  | None => Uncaught (ErrorInstance (readOfNull "split"))
  | Some dataUrl =>
      match index1 (split "," dataUrl) with
      | Some data =>
          Stored {| UploadedImage.data := data;
                    UploadedImage.mimeType := File.type file;
                    UploadedImage.preview := dataUrl |}
      | None => StoredWithoutData (File.type file) dataUrl
      end
  end.

(** ** [removeUploadedImage] (lines 128-130) *)

Definition removeUploadedImage (s : State) : State := setUploadedImage None s.

(** ** [handleGenerateOrEdit] (lines 132-150)

    The handler is cut at its [await]. *)

(** [!prompt.trim() || isLoading] (line 133). *)
Definition handleGenerateOrEdit_returns_early (s : State) : bool :=
  negb (truthy_string (Some (trim (prompt s)))) || isLoading s.

(** Lines 135-137. *)
Definition handleGenerateOrEdit_before (s : State) : State :=
  setGeneratedImageUrl None (setError None (setIsLoading true s)).

(** Line 140. *)
Definition imageToEdit (s : State) : option SourceImage.t :=
  match uploadedImage s with
  | Some u =>
      Some {| SourceImage.data := UploadedImage.data u;
              SourceImage.mimeType := UploadedImage.mimeType u |}
  | None => None
  end.

(** Lines 142-148, on the state; line 146 is in [fire] below. *)
Definition handleGenerateOrEdit_after (settled : Outcome string) (s : State)
  : State :=
  match settled with
  | Returned imageUrl =>
      setIsLoading false (setGeneratedImageUrl (Some imageUrl) s)
  | Threw err =>
      let errorMessage :=
        match err with
        | ErrorInstance message => message
        | NonError _ => "An unknown error occurred."
        end in
      setIsLoading false
        (setError
           (Some ("Failed to generate content. Please try again. Error: "
                    ++ errorMessage))
           s)
  end.

(** ** What is rendered (lines 152-264) *)

Definition isEditing (s : State) : bool := truthy_object (uploadedImage s).

(** The [disabled] attribute of the button (line 211). *)
Definition buttonDisabled (s : State) : bool :=
  isLoading s || negb (truthy_string (Some (trim (prompt s)))).

(** The text of the button (lines 214-224). *)
Definition buttonText (s : State) : string :=
  if isLoading s
  then (if isEditing s then "Editing..." else "Generating...")
  else (if isEditing s then "Edit Image" else "Generate Image").

(** The blocks of the right column (lines 230-260), in the order of the
    source. *)
Inductive Panel : Type :=
| ErrorPanel (message : string)
| LoadingPanel
| PlaceholderPanel
| ImagePanel (src : string).

Definition panels (s : State) : list Panel :=
  ((if truthy_string (error s)
    then [ErrorPanel (template_hole (error s))] else [])
   ++ (if isLoading s && negb (truthy_string (error s))
       then [LoadingPanel] else [])
   ++ (if negb (isLoading s)
          && negb (truthy_string (generatedImageUrl s))
          && negb (truthy_string (error s))
       then [PlaceholderPanel] else [])
   ++ (if truthy_string (generatedImageUrl s)
       then [ImagePanel (template_hole (generatedImageUrl s))] else []))%list.

(** ** The running component *)

Section Running.

Variable NetState : Type.
Variable ai : GoogleGenAI NetState.
Variable readOfUndefined : string -> string.
Variable readOfNull : string -> string.

(** The state, the readers started and not yet ended, the calls of
    [generateOrEditImage] that [handleGenerateOrEdit] awaits with what they
    will deliver, the errors of line 146, the errors no handler caught, and
    the world of the adapter. *)
Record Config : Type := mkConfig {
  state : State;
  reading : list File.t;
  awaiting : list (Outcome string);
  reported : list Thrown;
  uncaught : list Thrown;
  world : World NetState
}.

Definition with_state (s : State) (c : Config) : Config :=
  {| state := s;
     reading := reading c;
     awaiting := awaiting c;
     reported := reported c;
     uncaught := uncaught c;
     world := world c |}.

(** What can happen to the component. *)
Inductive Event : Type :=
| Change (value : string)
| Pick (files : option (list File.t))
| LoadEnd (reader : nat) (result : option string)
| Remove
| Click
| Settle.

(** The list without its [n]-th element. *)
Fixpoint remove_nth {A : Type} (n : nat) (xs : list A) : list A :=
  match n, xs with
  | _, [] => []
  | 0, _ :: rest => rest
  | S m, x :: rest => x :: remove_nth m rest
  end.

(** One event, handled on the state the previous one left.  [None] when the
    event cannot happen (no such reader, nothing awaited) or when it stores
    an upload without data. *)
Definition fire (e : Event) (c : Config) : option Config :=
  match e with
  | Change value => Some (with_state (setPrompt value (state c)) c)
  | Pick files =>
      let u := handleImageUpload files (state c) in
      Some {| state := next u;
              reading :=
                (reading c ++
                   match started u with Some f => [f] | None => [] end)%list;
              awaiting := awaiting c;
              reported := reported c;
              uncaught := uncaught c;
              world := world c |}
  | LoadEnd reader result =>
      match nth_error (reading c) reader with
      | None => None
      | Some file =>
          match onloadend readOfNull file result with
          | Stored u =>
              Some {| state := setUploadedImage (Some u) (state c);
                      reading := remove_nth reader (reading c);
                      awaiting := awaiting c;
                      reported := reported c;
                      uncaught := uncaught c;
                      world := world c |}
          | StoredWithoutData _ _ => None
          | Uncaught err =>
              Some {| state := state c;
                      reading := remove_nth reader (reading c);
                      awaiting := awaiting c;
                      reported := reported c;
                      uncaught := (uncaught c ++ [err])%list;
                      world := world c |}
          end
      end
  | Remove => Some (with_state (removeUploadedImage (state c)) c)
  | Click =>
      if handleGenerateOrEdit_returns_early (state c) then Some c
      else
        let (settled, w) :=
          generateOrEditImage ai readOfUndefined
            (prompt (state c)) (imageToEdit (state c)) (world c) in
        Some {| state := handleGenerateOrEdit_before (state c);
                reading := reading c;
                awaiting := (awaiting c ++ [settled])%list;
                reported := reported c;
                uncaught := uncaught c;
                world := w |}
  | Settle =>
      match awaiting c with
      | [] => None
      | settled :: rest =>
          Some {| state := handleGenerateOrEdit_after settled (state c);
                  reading := reading c;
                  awaiting := rest;
                  reported :=
                    (reported c ++
                       match settled with
                       | Threw err => [err]
                       | Returned _ => []
                       end)%list;
                  uncaught := uncaught c;
                  world := world c |}
      end
  end.

Fixpoint run_events (events : list Event) (c : Config) : option Config :=
  match events with
  | [] => Some c
  | e :: rest =>
      match fire e c with
      | Some c' => run_events rest c'
      | None => None
      end
  end.

(** The component as first rendered, nothing sent or logged yet. *)
Definition start (net : NetState) : Config :=
  {| state := initialState;
     reading := [];
     awaiting := [];
     reported := [];
     uncaught := [];
     world := {| console := []; requests := []; network := net |} |}.

(** The configurations the component can be in. *)
Definition reachable (c : Config) : Prop :=
  exists net events, run_events events (start net) = Some c.

End Running.

Arguments state {NetState} _.
Arguments reading {NetState} _.
Arguments awaiting {NetState} _.
Arguments reported {NetState} _.
Arguments uncaught {NetState} _.
Arguments world {NetState} _.
Arguments fire {NetState} _ _ _ _ _.
Arguments run_events {NetState} _ _ _ _ _.
Arguments start {NetState} _.
Arguments reachable {NetState} _ _ _ _.

End App.

(** ** A simulated session

    A provider that answers an edit with a picture and a generation with
    another, and the component after a list of events on a fresh page. *)
Definition demo_ai : GoogleGenAI nat :=
  mock_ai
    (content_with [inline_part (Some "ZWRpdGVk") (Some "image/png")])
    (images_with [generated (Some "cG5n") (Some "image/png")]).

(** A provider that is unreachable. *)
Definition offline_ai : GoogleGenAI nat :=
  mock_ai (Threw (ErrorInstance "fetch failed"))
    (Threw (ErrorInstance "fetch failed")).

Definition session (ai : GoogleGenAI nat) (events : list App.Event)
  : option (App.Config nat) :=
  App.run_events ai v8_readOfUndefined v8_readOfNull events (App.start 0).

Definition png_file : File.t := {| File.type := "image/png" |}.

Definition text_file : File.t := {| File.type := "text/plain" |}.

(** * Properties of the adapter *)

Section AdapterFacts.

Variable NetState : Type.
Variable ai : GoogleGenAI NetState.
Variable readOfUndefined : string -> string.

Local Abbreviation run := (generateOrEditImage ai readOfUndefined).
Local Abbreviation attempt := (generateOrEditImage_try ai readOfUndefined).
Local Abbreviation has_inline := (fun p : Part.t => truthy_object (Part.inlineData p)).
Local Abbreviation label := "Error generating content with Gemini API:".
Local Abbreviation unknown :=
  "An unknown error occurred while generating the content.".

(** ** The boundary: how [try]/[catch] turns the outcome of the [try] block
    into the outcome of the call *)

Lemma run_of_returned (prompt : string) (image : option SourceImage.t)
  (w w' : World NetState) (url : string) :
  attempt prompt image w = (Returned url, w') ->
  run prompt image w = (Returned url, w').
Proof.
  intros H. unfold generateOrEditImage, try_catch. now rewrite H.
Qed.

Lemma run_of_error (prompt : string) (image : option SourceImage.t)
  (w w' : World NetState) (message : string) :
  attempt prompt image w = (Threw (ErrorInstance message), w') ->
  run prompt image w =
    (Threw (ErrorInstance ("Gemini API Error: " ++ message)),
     logged w' (label, ErrorInstance message)).
Proof.
  intros H. unfold generateOrEditImage, try_catch. now rewrite H.
Qed.

Lemma run_of_non_error (prompt : string) (image : option SourceImage.t)
  (w w' : World NetState) (v : JsValue) :
  attempt prompt image w = (Threw (NonError v), w') ->
  run prompt image w =
    (Threw (ErrorInstance unknown), logged w' (label, NonError v)).
Proof.
  intros H. unfold generateOrEditImage, try_catch. now rewrite H.
Qed.

(** ** The [try] block once the provider has answered *)

Lemma attempt_edit_settled (prompt : string) (image : SourceImage.t)
  (w : World NetState) (response : GenerateContentResponse.t) (net : NetState) :
  generateContent ai (edit_request prompt image) (network w)
    = (Returned response, net) ->
  attempt prompt (Some image) w =
    (match
       GenerateContentResponse.candidates response
         ?. index0 ?. Candidate.content ?. Content.parts
         ?. find has_inline ?. Part.inlineData
     with
     | Some inlineData =>
         Returned ("data:" ++ template_hole (Blob.mimeType inlineData)
                     ++ ";base64," ++ template_hole (Blob.data inlineData))
     | None => Threw (ErrorInstance "API did not return an edited image.")
     end,
     sent w (CallGenerateContent (edit_request prompt image)) net).
Proof.
  intros H.
  unfold generateOrEditImage_try, bind, await_generateContent.
  rewrite H.
  now destruct (_ ?. Part.inlineData).
Qed.

Lemma attempt_edit_rejected (prompt : string) (image : SourceImage.t)
  (w : World NetState) (e : Thrown) (net : NetState) :
  generateContent ai (edit_request prompt image) (network w) = (Threw e, net) ->
  attempt prompt (Some image) w =
    (Threw e, sent w (CallGenerateContent (edit_request prompt image)) net).
Proof.
  intros H.
  unfold generateOrEditImage_try, bind, await_generateContent.
  now rewrite H.
Qed.

Lemma attempt_generate_rejected (prompt : string)
  (w : World NetState) (e : Thrown) (net : NetState) :
  generateImages ai (generate_request prompt) (network w) = (Threw e, net) ->
  attempt prompt None w =
    (Threw e, sent w (CallGenerateImages (generate_request prompt)) net).
Proof.
  intros H.
  unfold generateOrEditImage_try, bind, await_generateImages.
  now rewrite H.
Qed.

Lemma attempt_generate_settled (prompt : string)
  (w : World NetState) (response : GenerateImagesResponse.t) (net : NetState) :
  generateImages ai (generate_request prompt) (network w)
    = (Returned response, net) ->
  attempt prompt None w =
    (match GenerateImagesResponse.generatedImages response with
     | None | Some [] => Threw (ErrorInstance "API did not return any images.")
     | Some (first :: _) =>
         match GeneratedImage.image first with
         | None => Threw (ErrorInstance (readOfUndefined "imageBytes"))
         | Some img =>
             if truthy_string (Image.imageBytes img)
             then Returned ("data:image/jpeg;base64,"
                              ++ template_hole (Image.imageBytes img))
             else Threw (ErrorInstance "Generated image data is empty.")
         end
     end,
     sent w (CallGenerateImages (generate_request prompt)) net).
Proof.
  intros H.
  unfold generateOrEditImage_try, bind, await_generateImages.
  rewrite H.
  destruct (GenerateImagesResponse.generatedImages response) as [[|g gs]|];
    try reflexivity.
  destruct (GeneratedImage.image g) as [img|]; cbn; [|reflexivity].
  now destruct (truthy_string (Image.imageBytes img)).
Qed.

(** ** [find] on the parts of a response *)

Lemma find_no_inline (ps : list Part.t) :
  Forall (fun p => Part.inlineData p = None) ps ->
  find has_inline ps = None.
Proof.
  induction 1 as [|p ps Hp _ IH]; cbn; [reflexivity|].
  now rewrite Hp.
Qed.

Lemma find_first_inline (pre post : list Part.t) (p : Part.t) (b : Blob.t) :
  Forall (fun q => Part.inlineData q = None) pre ->
  Part.inlineData p = Some b ->
  find has_inline (pre ++ p :: post) = Some p.
Proof.
  intros Hpre Hp.
  induction Hpre as [|q pre Hq _ IH]; cbn.
  - now rewrite Hp.
  - now rewrite Hq.
Qed.

Lemma find_some_inline (ps : list Part.t) :
  Exists (fun p => Part.inlineData p <> None) ps ->
  exists p b, find has_inline ps = Some p /\ Part.inlineData p = Some b.
Proof.
  induction ps as [|q ps IH]; intros H.
  - inversion H.
  - cbn. destruct (Part.inlineData q) as [b|] eqn:Hq; cbn.
    + exists q, b. now split.
    + apply IH. inversion H as [? ? Hne|]; subst; [|assumption].
      congruence.
Qed.

(** ** What every call does to the world *)

(** The request that a call with these arguments sends. *)
Local Abbreviation request_of prompt image :=
  (match image with
   | Some img => CallGenerateContent (edit_request prompt img)
   | None => CallGenerateImages (generate_request prompt)
   end).

Lemma attempt_world (prompt : string) (image : option SourceImage.t)
  (w : World NetState) :
  exists net,
    snd (attempt prompt image w) = sent w (request_of prompt image) net.
Proof.
  destruct image as [img|].
  - destruct (generateContent ai (edit_request prompt img) (network w))
      as [[response|e] net] eqn:H; exists net.
    + now rewrite (attempt_edit_settled _ _ _ _ _ H).
    + now rewrite (attempt_edit_rejected _ _ _ _ _ H).
  - destruct (generateImages ai (generate_request prompt) (network w))
      as [[response|e] net] eqn:H; exists net.
    + now rewrite (attempt_generate_settled _ _ _ _ H).
    + now rewrite (attempt_generate_rejected _ _ _ _ H).
Qed.

Lemma run_cases (prompt : string) (image : option SourceImage.t)
  (w : World NetState) :
  (exists url,
      fst (attempt prompt image w) = Returned url /\
      run prompt image w = (Returned url, snd (attempt prompt image w)))
  \/ (exists message,
      fst (attempt prompt image w) = Threw (ErrorInstance message) /\
      run prompt image w =
        (Threw (ErrorInstance ("Gemini API Error: " ++ message)),
         logged (snd (attempt prompt image w))
           (label, ErrorInstance message)))
  \/ (exists v,
      fst (attempt prompt image w) = Threw (NonError v) /\
      run prompt image w =
        (Threw (ErrorInstance unknown),
         logged (snd (attempt prompt image w)) (label, NonError v))).
Proof.
  destruct (attempt prompt image w) as [[url|[message|v]] w'] eqn:H; cbn.
  - left. exists url. split; [reflexivity|]. now apply run_of_returned.
  - right; left. exists message. split; [reflexivity|]. now apply run_of_error.
  - right; right. exists v. split; [reflexivity|]. now apply run_of_non_error.
Qed.

(** C1.  Every call sends exactly one request, and the request is fixed by
    whether [image] was passed: [generateContent] (the edit operation) with
    the image and the prompt when it was, [generateImages] (the generation
    operation) with the prompt when it was not.  The contents of the prompt
    and of the image, the answer of the provider and the state of the world
    have no say in the choice. *)
Theorem generateOrEditImage_selects_operation
  (prompt : string) (image : option SourceImage.t) (w : World NetState) :
  requests (snd (run prompt image w)) =
    (requests w ++
      [match image with
       | Some img => CallGenerateContent (edit_request prompt img)
       | None => CallGenerateImages (generate_request prompt)
       end])%list.
Proof.
  destruct (attempt_world prompt image w) as [net Hw].
  destruct (run_cases prompt image w)
    as [(url & _ & Hr)|[(message & _ & Hr)|(v & _ & Hr)]];
    rewrite Hr, Hw; reflexivity.
Qed.

(** ** The generation branch *)

Lemma generate_no_images (prompt : string) (w : World NetState)
  (response : GenerateImagesResponse.t) (net : NetState) :
  generateImages ai (generate_request prompt) (network w)
    = (Returned response, net) ->
  GenerateImagesResponse.generatedImages response = None \/
  GenerateImagesResponse.generatedImages response = Some [] ->
  fst (run prompt None w) =
    Threw (ErrorInstance "Gemini API Error: API did not return any images.").
Proof.
  intros H Hshape.
  erewrite run_of_error; [reflexivity|].
  rewrite (attempt_generate_settled _ _ _ _ H).
  now destruct Hshape as [Hs|Hs]; rewrite Hs.
Qed.

Lemma generate_empty_payload (prompt : string) (w : World NetState)
  (response : GenerateImagesResponse.t) (net : NetState)
  (first : GeneratedImage.t) (rest : list GeneratedImage.t) (img : Image.t) :
  generateImages ai (generate_request prompt) (network w)
    = (Returned response, net) ->
  GenerateImagesResponse.generatedImages response = Some (first :: rest) ->
  GeneratedImage.image first = Some img ->
  Image.imageBytes img = None \/ Image.imageBytes img = Some "" ->
  fst (run prompt None w) =
    Threw (ErrorInstance "Gemini API Error: Generated image data is empty.").
Proof.
  intros H Hlist Himg Hbytes.
  erewrite run_of_error; [reflexivity|].
  rewrite (attempt_generate_settled _ _ _ _ H), Hlist, Himg.
  now destruct Hbytes as [Hb|Hb]; rewrite Hb.
Qed.

(** A first entry without its [image] object: line 59 reads [imageBytes] of
    [undefined], and the [TypeError] is what the caller is told. *)
Lemma generate_missing_image_object (prompt : string) (w : World NetState)
  (response : GenerateImagesResponse.t) (net : NetState)
  (first : GeneratedImage.t) (rest : list GeneratedImage.t) :
  generateImages ai (generate_request prompt) (network w)
    = (Returned response, net) ->
  GenerateImagesResponse.generatedImages response = Some (first :: rest) ->
  GeneratedImage.image first = None ->
  fst (run prompt None w) =
    Threw (ErrorInstance
             ("Gemini API Error: " ++ readOfUndefined "imageBytes")).
Proof.
  intros H Hlist Himg.
  erewrite run_of_error; [reflexivity|].
  now rewrite (attempt_generate_settled _ _ _ _ H), Hlist, Himg.
Qed.

(** C5.  When the first generated image carries a non-empty payload [P], the
    call returns the data URL of [P] tagged [image/jpeg], whatever media type
    the response gives for the image and whatever follows the first entry. *)
Theorem generate_returns_jpeg (prompt : string) (w : World NetState)
  (response : GenerateImagesResponse.t) (net : NetState)
  (first : GeneratedImage.t) (rest : list GeneratedImage.t)
  (P : string) (claimed : option string) :
  generateImages ai (generate_request prompt) (network w)
    = (Returned response, net) ->
  GenerateImagesResponse.generatedImages response = Some (first :: rest) ->
  GeneratedImage.image first =
    Some {| Image.imageBytes := Some P; Image.mimeType := claimed |} ->
  P <> "" ->
  fst (run prompt None w) = Returned (dataUrl "image/jpeg" P).
Proof.
  intros H Hlist Himg HP.
  apply String.eqb_neq in HP.
  erewrite run_of_returned; [reflexivity|].
  rewrite (attempt_generate_settled _ _ _ _ H), Hlist, Himg.
  cbn [Image.imageBytes truthy_string template_hole].
  now rewrite HP.
Qed.

(** ** The edit branch *)

(** The response is read through its first candidate only, and every link
    down to the parts may be absent. *)
Lemma edit_parts_of_first_candidate
  (response : GenerateContentResponse.t)
  (c : Candidate.t) (cs : list Candidate.t) (ct : Content.t)
  (ps : list Part.t) :
  GenerateContentResponse.candidates response = Some (c :: cs) ->
  Candidate.content c = Some ct ->
  Content.parts ct = Some ps ->
  GenerateContentResponse.candidates response
    ?. index0 ?. Candidate.content ?. Content.parts ?. find has_inline
  = find has_inline ps.
Proof.
  intros Hc Hct Hps. rewrite Hc. cbn. rewrite Hct. cbn. now rewrite Hps.
Qed.

Lemma edit_first_inline_part (prompt : string) (image : SourceImage.t)
  (w : World NetState) (response : GenerateContentResponse.t) (net : NetState)
  (c : Candidate.t) (cs : list Candidate.t) (ct : Content.t)
  (pre post : list Part.t) (p : Part.t) (b : Blob.t) :
  generateContent ai (edit_request prompt image) (network w)
    = (Returned response, net) ->
  GenerateContentResponse.candidates response = Some (c :: cs) ->
  Candidate.content c = Some ct ->
  Content.parts ct = Some (pre ++ p :: post)%list ->
  Forall (fun q => Part.inlineData q = None) pre ->
  Part.inlineData p = Some b ->
  fst (run prompt (Some image) w) =
    Returned (dataUrl (template_hole (Blob.mimeType b))
                (template_hole (Blob.data b))).
Proof.
  intros H Hc Hct Hps Hpre Hp.
  erewrite run_of_returned; [reflexivity|].
  rewrite (attempt_edit_settled _ _ _ _ _ H).
  rewrite (edit_parts_of_first_candidate _ _ _ _ _ Hc Hct Hps).
  rewrite (find_first_inline _ _ _ _ Hpre Hp). cbn [opt_chain].
  now rewrite Hp.
Qed.

(** C3.  On the edit branch, a response whose parts hold no inline data makes
    the call fail, and the reason given is that no edited image came back. *)
Theorem edit_without_inline_part_fails
  (prompt : string) (image : SourceImage.t)
  (w : World NetState) (response : GenerateContentResponse.t) (net : NetState)
  (c : Candidate.t) (cs : list Candidate.t) (ct : Content.t)
  (ps : list Part.t) :
  generateContent ai (edit_request prompt image) (network w)
    = (Returned response, net) ->
  GenerateContentResponse.candidates response = Some (c :: cs) ->
  Candidate.content c = Some ct ->
  Content.parts ct = Some ps ->
  Forall (fun p => Part.inlineData p = None) ps ->
  fst (run prompt (Some image) w) =
    Threw (ErrorInstance
             "Gemini API Error: API did not return an edited image.").
Proof.
  intros H Hc Hct Hps Hnone.
  erewrite run_of_error; [reflexivity|].
  rewrite (attempt_edit_settled _ _ _ _ _ H).
  rewrite (edit_parts_of_first_candidate _ _ _ _ _ Hc Hct Hps).
  now rewrite (find_no_inline _ Hnone).
Qed.

(** C4.  On the edit branch, when the parts hold inline data, the call
    returns the first such part: the data URL made of its media type [M] and
    its payload [P].  Parts before it carry no inline data; parts after it,
    and candidates after the first, are not looked at. *)
Theorem edit_returns_first_inline_part
  (prompt : string) (image : SourceImage.t)
  (w : World NetState) (response : GenerateContentResponse.t) (net : NetState)
  (c : Candidate.t) (cs : list Candidate.t) (ct : Content.t)
  (pre post : list Part.t) (p : Part.t) (P M : string) :
  generateContent ai (edit_request prompt image) (network w)
    = (Returned response, net) ->
  GenerateContentResponse.candidates response = Some (c :: cs) ->
  Candidate.content c = Some ct ->
  Content.parts ct = Some (pre ++ p :: post)%list ->
  Forall (fun q => Part.inlineData q = None) pre ->
  Part.inlineData p = Some {| Blob.data := Some P; Blob.mimeType := Some M |} ->
  fst (run prompt (Some image) w) = Returned (dataUrl M P).
Proof.
  intros H Hc Hct Hps Hpre Hp.
  exact (edit_first_inline_part _ _ _ _ _ _ _ _ _ _ _ _ H Hc Hct Hps Hpre Hp).
Qed.

(** C8.  On the edit branch the payload is not checked: as soon as one part
    carries an [inlineData] object the call returns, and when the first such
    part has the empty string for its data the returned data URL has nothing
    after [base64,]. *)
Theorem edit_accepts_empty_payload
  (prompt : string) (image : SourceImage.t)
  (w : World NetState) (response : GenerateContentResponse.t) (net : NetState)
  (c : Candidate.t) (cs : list Candidate.t) (ct : Content.t)
  (ps : list Part.t) :
  generateContent ai (edit_request prompt image) (network w)
    = (Returned response, net) ->
  GenerateContentResponse.candidates response = Some (c :: cs) ->
  Candidate.content c = Some ct ->
  Content.parts ct = Some ps ->
  Exists (fun p => Part.inlineData p <> None) ps ->
  (exists url, fst (run prompt (Some image) w) = Returned url) /\
  (forall pre p post m,
      ps = (pre ++ p :: post)%list ->
      Forall (fun q => Part.inlineData q = None) pre ->
      Part.inlineData p = Some {| Blob.data := Some ""; Blob.mimeType := m |} ->
      fst (run prompt (Some image) w) =
        Returned (dataUrl (template_hole m) "")) /\
  (forall pre p post m,
      ps = (pre ++ p :: post)%list ->
      Forall (fun q => Part.inlineData q = None) pre ->
      Part.inlineData p = Some {| Blob.data := None; Blob.mimeType := m |} ->
      fst (run prompt (Some image) w) =
        Returned (dataUrl (template_hole m) "undefined")).
Proof.
  intros H Hc Hct Hps Hsome.
  split; [|split].
  - destruct (find_some_inline _ Hsome) as (p & b & Hfind & Hp).
    eexists.
    erewrite run_of_returned; [reflexivity|].
    rewrite (attempt_edit_settled _ _ _ _ _ H).
    rewrite (edit_parts_of_first_candidate _ _ _ _ _ Hc Hct Hps).
    rewrite Hfind. cbn [opt_chain]. now rewrite Hp.
  - intros pre p post m -> Hpre Hp.
    exact (edit_first_inline_part _ _ _ _ _ _ _ _ _ _ _ _ H Hc Hct Hps Hpre Hp).
  - intros pre p post m -> Hpre Hp.
    exact (edit_first_inline_part _ _ _ _ _ _ _ _ _ _ _ _ H Hc Hct Hps Hpre Hp).
Qed.

(** C9.  On the edit branch a response with a link missing on the way to
    the parts (no candidates list, an empty one, a first candidate without
    content, a content without parts) is read without a [TypeError] and ends
    in the same failure as a response without inline data.  Candidates after
    the first play no part. *)
Theorem edit_degenerate_response_fails
  (prompt : string) (image : SourceImage.t)
  (w : World NetState) (response : GenerateContentResponse.t) (net : NetState) :
  generateContent ai (edit_request prompt image) (network w)
    = (Returned response, net) ->
  GenerateContentResponse.candidates response = None
  \/ GenerateContentResponse.candidates response = Some []
  \/ (exists c cs,
        GenerateContentResponse.candidates response = Some (c :: cs) /\
        Candidate.content c = None)
  \/ (exists c cs ct,
        GenerateContentResponse.candidates response = Some (c :: cs) /\
        Candidate.content c = Some ct /\
        Content.parts ct = None) ->
  run prompt (Some image) w =
    (Threw (ErrorInstance
              "Gemini API Error: API did not return an edited image."),
     logged (sent w (CallGenerateContent (edit_request prompt image)) net)
       (label, ErrorInstance "API did not return an edited image.")).
Proof.
  intros H Hshape.
  apply run_of_error.
  rewrite (attempt_edit_settled _ _ _ _ _ H).
  destruct Hshape as [Hc|[Hc|[(c & cs & Hc & Hct)|(c & cs & ct & Hc & Hct & Hps)]]];
    rewrite Hc; cbn; try reflexivity.
  - now rewrite Hct.
  - rewrite Hct. cbn. now rewrite Hps.
Qed.

(** ** The boundary, seen from outside *)

(** C6.  A rejection of the network call is caught, logged once and thrown
    again as an [Error] whose message is the original message behind the
    prefix, or the fixed unknown-error message when the rejection is not an
    [Error].  More generally every failing call, whatever raised the
    exception, writes exactly one console entry holding the original
    exception and throws its wrapped form; a successful call writes none.
    Nothing that is not such an [Error] leaves the function. *)
Theorem generateOrEditImage_error_boundary
  (prompt : string) (image : option SourceImage.t) (w : World NetState) :
  (forall e net,
      match image with
      | Some img =>
          generateContent ai (edit_request prompt img) (network w)
            = (Threw e, net)
      | None =>
          generateImages ai (generate_request prompt) (network w)
            = (Threw e, net)
      end ->
      run prompt image w =
        (Threw (match e with
                | ErrorInstance message =>
                    ErrorInstance ("Gemini API Error: " ++ message)
                | NonError _ => ErrorInstance unknown
                end),
         logged (sent w (request_of prompt image) net) (label, e)))
  /\
  match run prompt image w with
  | (Returned _, w') =>
      exists net, w' = sent w (request_of prompt image) net
  | (Threw e, w') =>
      exists original net,
        w' = logged (sent w (request_of prompt image) net) (label, original) /\
        match original with
        | ErrorInstance message =>
            e = ErrorInstance ("Gemini API Error: " ++ message)
        | NonError _ => e = ErrorInstance unknown
        end
  end.
Proof.
  split.
  - intros e net H.
    destruct image as [img|].
    + apply attempt_edit_rejected in H.
      destruct e as [message|v];
        [now apply run_of_error | now apply run_of_non_error].
    + apply attempt_generate_rejected in H.
      destruct e as [message|v];
        [now apply run_of_error | now apply run_of_non_error].
  - destruct (attempt_world prompt image w) as [net Hw].
    destruct (run_cases prompt image w)
      as [(url & _ & Hr)|[(message & _ & Hr)|(v & _ & Hr)]];
      rewrite Hr, Hw.
    + now exists net.
    + now exists (ErrorInstance message), net.
    + now exists (NonError v), net.
Qed.

(** The outcome of a call is fixed by its arguments and by what the provider
    answers to its one request: the console, the requests sent so far and the
    state of the remote side do not reach it otherwise. *)
Lemma outcome_fixed_by_answer
  (prompt : string) (image : option SourceImage.t) (w1 w2 : World NetState) :
  match image with
  | Some img =>
      fst (generateContent ai (edit_request prompt img) (network w1))
      = fst (generateContent ai (edit_request prompt img) (network w2))
  | None =>
      fst (generateImages ai (generate_request prompt) (network w1))
      = fst (generateImages ai (generate_request prompt) (network w2))
  end ->
  fst (run prompt image w1) = fst (run prompt image w2).
Proof.
  assert (Hrun : forall w1 w2,
             fst (attempt prompt image w1) = fst (attempt prompt image w2) ->
             fst (run prompt image w1) = fst (run prompt image w2)).
  { clear. intros w1 w2 Ha.
    destruct (run_cases prompt image w1)
      as [(u1 & H1 & R1)|[(m1 & H1 & R1)|(v1 & H1 & R1)]];
      destruct (run_cases prompt image w2)
        as [(u2 & H2 & R2)|[(m2 & H2 & R2)|(v2 & H2 & R2)]];
      rewrite R1, R2; rewrite H1, H2 in Ha; cbn; congruence. }
  intros H. apply Hrun.
  destruct image as [img|].
  - destruct (generateContent ai (edit_request prompt img) (network w1))
      as [[r1|e1] n1] eqn:E1;
      destruct (generateContent ai (edit_request prompt img) (network w2))
        as [[r2|e2] n2] eqn:E2;
      cbn in H; try discriminate; injection H as ->.
    + now rewrite (attempt_edit_settled _ _ _ _ _ E1),
        (attempt_edit_settled _ _ _ _ _ E2).
    + now rewrite (attempt_edit_rejected _ _ _ _ _ E1),
        (attempt_edit_rejected _ _ _ _ _ E2).
  - destruct (generateImages ai (generate_request prompt) (network w1))
      as [[r1|e1] n1] eqn:E1;
      destruct (generateImages ai (generate_request prompt) (network w2))
        as [[r2|e2] n2] eqn:E2;
      cbn in H; try discriminate; injection H as ->.
    + now rewrite (attempt_generate_settled _ _ _ _ E1),
        (attempt_generate_settled _ _ _ _ E2).
    + now rewrite (attempt_generate_rejected _ _ _ _ E1),
        (attempt_generate_rejected _ _ _ _ E2).
Qed.

(** With a provider whose answers depend on the request alone, any two
    calls with the same arguments have the same outcome, in any two worlds. *)
Lemma deterministic_provider_same_outcome
  (prompt : string) (image : option SourceImage.t) (w1 w2 : World NetState) :
  (forall params s1 s2,
      fst (generateContent ai params s1) = fst (generateContent ai params s2)) ->
  (forall params s1 s2,
      fst (generateImages ai params s1) = fst (generateImages ai params s2)) ->
  fst (run prompt image w1) = fst (run prompt image w2).
Proof.
  intros Hc Hi. apply outcome_fixed_by_answer.
  destruct image; [apply Hc | apply Hi].
Qed.

(** C7.  A second call with the same prompt and image, made in the world the
    first call left behind, has the outcome of the first call as soon as the
    provider answers its request as it did the first time.  What the first
    call wrote to the console and sent over the network does not matter. *)
Theorem generateOrEditImage_idempotent
  (prompt : string) (image : option SourceImage.t) (w : World NetState) :
  match image with
  | Some img =>
      fst (generateContent ai (edit_request prompt img)
             (network (snd (run prompt image w))))
      = fst (generateContent ai (edit_request prompt img) (network w))
  | None =>
      fst (generateImages ai (generate_request prompt)
             (network (snd (run prompt image w))))
      = fst (generateImages ai (generate_request prompt) (network w))
  end ->
  fst (run prompt image (snd (run prompt image w)))
  = fst (run prompt image w).
Proof.
  intros H. apply outcome_fixed_by_answer.
  now destruct image.
Qed.

(** C10, as the code has it.  An [Error] thrown inside the [try] block, the
    three shape failures among them, leaves the function with its message
    behind the prefix.  Every error that leaves the function is either of
    that prefixed form or the fixed unknown-error message, which has no
    prefix; none is one of the three shape-failure messages as thrown. *)
Theorem generateOrEditImage_reasons_wrapped
  (prompt : string) (image : option SourceImage.t) (w : World NetState) :
  (forall reason,
      fst (attempt prompt image w) = Threw (ErrorInstance reason) ->
      fst (run prompt image w) =
        Threw (ErrorInstance ("Gemini API Error: " ++ reason)))
  /\
  (forall e,
      fst (run prompt image w) = Threw e ->
      ((exists reason, e = ErrorInstance ("Gemini API Error: " ++ reason))
       \/ e = ErrorInstance unknown)
      /\ e <> ErrorInstance "API did not return an edited image."
      /\ e <> ErrorInstance "API did not return any images."
      /\ e <> ErrorInstance "Generated image data is empty.").
Proof.
  destruct (run_cases prompt image w)
    as [(url & Ha & Hr)|[(message & Ha & Hr)|(v & Ha & Hr)]];
    rewrite Hr, Ha; cbn [fst]; split;
    try (intros reason H; congruence);
    intros e H; injection H as <-.
  - split; [left; now exists message|].
    repeat split; discriminate.
  - split; [now right|].
    repeat split; discriminate.
Qed.

End AdapterFacts.

(** * The adapter on simulated responses *)

(** C2, where the code departs from it.  The provider answers with one entry
    that was filtered out and carries no [image] object.  The payload of the
    first entry is missing, yet the failure the caller sees is the engine's
    [TypeError] for line 59, not the empty-payload reason of line 61. *)
Theorem generate_filtered_first_entry :
  let outcome :=
    fst (generateOrEditImage
           (mock_ai no_content (images_with [filtered "SAFETY"]))
           v8_readOfUndefined "a red kite" None fresh_world) in
  outcome =
    Threw (ErrorInstance
             "Gemini API Error: Cannot read properties of undefined (reading 'imageBytes')")
  /\ outcome <>
       Threw (ErrorInstance "Gemini API Error: Generated image data is empty.").
Proof.
  split; [reflexivity | discriminate].
Qed.

(** On the other shapes of C2 the code does as the claim says: no list or an
    empty list gives one reason, a first image without payload another. *)
Example generate_failures_on_mocks :
  fst (generateOrEditImage (mock_ai no_content no_images)
         v8_readOfUndefined "a red kite" None fresh_world)
  = Threw (ErrorInstance "Gemini API Error: API did not return any images.")
  /\
  fst (generateOrEditImage (mock_ai no_content (images_with []))
         v8_readOfUndefined "a red kite" None fresh_world)
  = Threw (ErrorInstance "Gemini API Error: API did not return any images.")
  /\
  fst (generateOrEditImage
         (mock_ai no_content (images_with [generated (Some "") None]))
         v8_readOfUndefined "a red kite" None fresh_world)
  = Threw (ErrorInstance "Gemini API Error: Generated image data is empty.")
  /\
  fst (generateOrEditImage
         (mock_ai no_content (images_with [generated None (Some "image/png")]))
         v8_readOfUndefined "a red kite" None fresh_world)
  = Threw (ErrorInstance "Gemini API Error: Generated image data is empty.").
Proof.
  repeat split.
Qed.

Lemma edit_without_inline_part_fails_witness :
  fst (generateOrEditImage
         (mock_ai (content_with [text_part "I cannot edit this."]) no_images)
         v8_readOfUndefined "make the sky red" (Some photo) fresh_world)
  = Threw (ErrorInstance
             "Gemini API Error: API did not return an edited image.").
Proof.
  eapply (edit_without_inline_part_fails nat
            (mock_ai (content_with [text_part "I cannot edit this."]) no_images)
            v8_readOfUndefined "make the sky red" photo fresh_world);
    try reflexivity.
  repeat constructor.
Defined.

Lemma edit_returns_first_inline_part_witness :
  fst (generateOrEditImage
         (mock_ai
            (content_with
               [ text_part "Here it is.";
                 inline_part (Some "Zmlyc3Q=") (Some "image/png");
                 inline_part (Some "c2Vjb25k") (Some "image/webp") ])
            no_images)
         v8_readOfUndefined "make the sky red" (Some photo) fresh_world)
  = Returned "data:image/png;base64,Zmlyc3Q=".
Proof.
  eapply (edit_returns_first_inline_part nat _ v8_readOfUndefined
            "make the sky red" photo fresh_world _ _ _ _ _
            [text_part "Here it is."]
            [inline_part (Some "c2Vjb25k") (Some "image/webp")]
            (inline_part (Some "Zmlyc3Q=") (Some "image/png"))
            "Zmlyc3Q=" "image/png");
    try reflexivity.
  repeat constructor.
Defined.

Lemma generate_returns_jpeg_witness :
  fst (generateOrEditImage
         (mock_ai no_content
            (images_with [generated (Some "cG5n") (Some "image/png")]))
         v8_readOfUndefined "a red kite" None fresh_world)
  = Returned "data:image/jpeg;base64,cG5n".
Proof.
  eapply (generate_returns_jpeg nat _ v8_readOfUndefined "a red kite"
            fresh_world _ _ _ _ "cG5n" (Some "image/png"));
    try reflexivity.
  discriminate.
Defined.

Lemma edit_accepts_empty_payload_witness :
  fst (generateOrEditImage
         (mock_ai (content_with [inline_part (Some "") (Some "image/png")])
            no_images)
         v8_readOfUndefined "make the sky red" (Some photo) fresh_world)
  = Returned "data:image/png;base64,".
Proof.
  refine (proj1 (proj2
            (edit_accepts_empty_payload nat
               (mock_ai
                  (content_with [inline_part (Some "") (Some "image/png")])
                  no_images)
               v8_readOfUndefined "make the sky red" photo fresh_world
               _ _ _ _ _ [inline_part (Some "") (Some "image/png")]
               eq_refl eq_refl eq_refl eq_refl _))
            [] (inline_part (Some "") (Some "image/png")) []
            (Some "image/png") eq_refl _ eq_refl).
  - constructor. discriminate.
  - constructor.
Defined.

Lemma edit_degenerate_response_fails_witness :
  fst (generateOrEditImage
         (mock_ai
            (Returned
               {| GenerateContentResponse.candidates :=
                    Some [ {| Candidate.content := None |};
                           {| Candidate.content :=
                                Some {| Content.parts :=
                                          Some [inline_part (Some "bGF0ZQ==")
                                                  (Some "image/png")] |} |} ] |})
            no_images)
         v8_readOfUndefined "make the sky red" (Some photo) fresh_world)
  = Threw (ErrorInstance
             "Gemini API Error: API did not return an edited image.").
Proof.
  erewrite (edit_degenerate_response_fails nat _ v8_readOfUndefined
              "make the sky red" photo fresh_world);
    [reflexivity | reflexivity |].
  right; right; left. eexists _, _. split; reflexivity.
Defined.

Lemma generateOrEditImage_error_boundary_witness :
  generateOrEditImage
    (mock_ai no_content (Threw (ErrorInstance "fetch failed")))
    v8_readOfUndefined "a red kite" None fresh_world
  = (Threw (ErrorInstance "Gemini API Error: fetch failed"),
     {| console := [("Error generating content with Gemini API:",
                     ErrorInstance "fetch failed")];
        requests := [CallGenerateImages (generate_request "a red kite")];
        network := 1 |})
  /\
  generateOrEditImage
    (mock_ai (Threw (NonError (JsString "aborted"))) no_images)
    v8_readOfUndefined "make the sky red" (Some photo) fresh_world
  = (Threw (ErrorInstance
              "An unknown error occurred while generating the content."),
     {| console := [("Error generating content with Gemini API:",
                     NonError (JsString "aborted"))];
        requests :=
          [CallGenerateContent (edit_request "make the sky red" photo)];
        network := 1 |}).
Proof.
  split.
  - exact (proj1 (generateOrEditImage_error_boundary nat
                    (mock_ai no_content (Threw (ErrorInstance "fetch failed")))
                    v8_readOfUndefined "a red kite" None fresh_world)
             (ErrorInstance "fetch failed") 1 eq_refl).
  - exact (proj1 (generateOrEditImage_error_boundary nat
                    (mock_ai (Threw (NonError (JsString "aborted"))) no_images)
                    v8_readOfUndefined "make the sky red" (Some photo)
                    fresh_world)
             (NonError (JsString "aborted")) 1 eq_refl).
Defined.

Lemma generateOrEditImage_idempotent_witness :
  let ai :=
    mock_ai no_content
      (images_with [generated (Some "cG5n") (Some "image/png")]) in
  let first_run :=
    generateOrEditImage ai v8_readOfUndefined "a red kite" None fresh_world in
  network (snd first_run) = 1
  /\ fst (generateOrEditImage ai v8_readOfUndefined "a red kite" None
            (snd first_run))
     = fst first_run.
Proof.
  split; [reflexivity|].
  apply (generateOrEditImage_idempotent nat
           (mock_ai no_content
              (images_with [generated (Some "cG5n") (Some "image/png")]))
           v8_readOfUndefined "a red kite" None fresh_world).
  reflexivity.
Defined.

Lemma generateOrEditImage_reasons_wrapped_witness :
  fst (generateOrEditImage (mock_ai no_content (images_with []))
         v8_readOfUndefined "a red kite" None fresh_world)
  = Threw (ErrorInstance "Gemini API Error: API did not return any images.").
Proof.
  apply (proj1 (generateOrEditImage_reasons_wrapped nat
                  (mock_ai no_content (images_with []))
                  v8_readOfUndefined "a red kite" None fresh_world)
           "API did not return any images.").
  reflexivity.
Defined.

(** C10 as it is worded fails where the provider rejects with a value that is
    not an [Error]: the error that leaves the function is the fixed
    unknown-error message, and no reason text makes it a prefixed one. *)
Lemma unknown_error_has_no_prefix :
  let outcome :=
    fst (generateOrEditImage
           (mock_ai no_content (Threw (NonError (JsString "aborted"))))
           v8_readOfUndefined "a red kite" None fresh_world) in
  outcome =
    Threw (ErrorInstance
             "An unknown error occurred while generating the content.")
  /\ ~ (exists reason,
           outcome = Threw (ErrorInstance ("Gemini API Error: " ++ reason))).
Proof.
  split; [reflexivity|].
  intros [reason H]. discriminate H.
Qed.

(** * Properties of the component *)

(** ** Strings *)




Lemma list_ascii_of_string_app (a b : string) :
  list_ascii_of_string (a ++ b)
  = (list_ascii_of_string a ++ list_ascii_of_string b)%list.
Proof.
  induction a as [|c a IH]; cbn; [reflexivity|]. now rewrite IH.
Qed.

Lemma split_nonempty (sep : ascii) (s : string) : split sep s <> [].
Proof.
  destruct s as [|c rest]; cbn; [discriminate|].
  destruct (Ascii.eqb c sep); [discriminate|].
  destruct (split sep rest); discriminate.
Qed.

Lemma split_without_separator (sep : ascii) (s : string) :
  Forall (fun c => c <> sep) (list_ascii_of_string s) ->
  split sep s = [s].
Proof.
  induction s as [|c rest IH]; cbn; intros H; [reflexivity|].
  inversion H as [|? ? Hc Hrest]; subst.
  apply Ascii.eqb_neq in Hc. rewrite Hc.
  now rewrite (IH Hrest).
Qed.

Lemma split_at_first_separator (sep : ascii) (a b : string) :
  Forall (fun c => c <> sep) (list_ascii_of_string a) ->
  split sep (a ++ String sep b) = a :: split sep b.
Proof.
  induction a as [|c a IH]; cbn; intros H.
  - now rewrite Ascii.eqb_refl.
  - inversion H as [|? ? Hc Ha]; subst.
    apply Ascii.eqb_neq in Hc. rewrite Hc.
    now rewrite (IH Ha).
Qed.

Lemma string_app_assoc (a b c : string) : (a ++ b) ++ c = a ++ (b ++ c).
Proof.
  induction a as [|x a IH]; cbn; [reflexivity|]. now rewrite IH.
Qed.

Lemma dataUrl_cut (mediaType bytes : string) :
  dataUrl mediaType bytes
  = ("data:" ++ mediaType ++ ";base64") ++ String "," bytes.
Proof.
  unfold dataUrl.
  change (";base64," ++ bytes) with (";base64" ++ String "," bytes).
  rewrite <- !string_app_assoc. reflexivity.
Qed.

Lemma dataUrl_header_without_comma (mediaType : string) :
  Forall (fun c => c <> ","%char) (list_ascii_of_string mediaType) ->
  Forall (fun c => c <> ","%char)
    (list_ascii_of_string ("data:" ++ mediaType ++ ";base64")).
Proof.
  intros H.
  rewrite !list_ascii_of_string_app.
  repeat (apply Forall_app; split); try assumption;
    cbn; repeat constructor; discriminate.
Qed.

(** ** More on the adapter *)

Section AdapterMore.

Variable NetState : Type.
Variable ai : GoogleGenAI NetState.
Variable readOfUndefined : string -> string.

Local Abbreviation run := (generateOrEditImage ai readOfUndefined).
Local Abbreviation attempt := (generateOrEditImage_try ai readOfUndefined).
Local Abbreviation has_inline :=
  (fun p : Part.t => truthy_object (Part.inlineData p)).

Lemma returned_by_attempt (prompt : string) (image : option SourceImage.t)
  (w : World NetState) (url : string) :
  fst (run prompt image w) = Returned url <->
  fst (attempt prompt image w) = Returned url.
Proof.
  destruct (run_cases NetState ai readOfUndefined prompt image w)
    as [(u & Ha & Hr)|[(m & Ha & Hr)|(v & Ha & Hr)]];
    rewrite Hr, Ha; cbn; split; congruence.
Qed.

Lemma attempt_returns_data_url
  (prompt : string) (image : option SourceImage.t) (w : World NetState)
  (url : string) :
  fst (attempt prompt image w) = Returned url ->
  exists mediaType bytes,
    url = dataUrl mediaType bytes /\
    (image = None -> mediaType = "image/jpeg" /\ bytes <> "").
Proof.
  destruct image as [img|].
  - destruct (generateContent ai (edit_request prompt img) (network w))
      as [[response|e] net] eqn:H.
    + rewrite (attempt_edit_settled _ _ _ _ _ _ _ _ H). cbn [fst].
      destruct (_ ?. Part.inlineData) as [blob|]; [|discriminate].
      intros [= <-]. eexists _, _. split; [reflexivity | discriminate].
    + rewrite (attempt_edit_rejected _ _ _ _ _ _ _ _ H). discriminate.
  - destruct (generateImages ai (generate_request prompt) (network w))
      as [[response|e] net] eqn:H.
    + rewrite (attempt_generate_settled _ _ _ _ _ _ _ H). cbn [fst].
      destruct (GenerateImagesResponse.generatedImages response)
        as [[|g gs]|]; try discriminate.
      destruct (GeneratedImage.image g) as [img|]; [|discriminate].
      destruct (Image.imageBytes img) as [P|]; cbn; [|discriminate].
      destruct (P =? "") eqn:HP; cbn; [discriminate|].
      intros [= <-]. exists "image/jpeg", P.
      split; [reflexivity|]. intros _. split; [reflexivity|].
      now apply String.eqb_neq.
    + rewrite (attempt_generate_rejected _ _ _ _ _ _ _ H). discriminate.
Qed.


(** Where a call leaves the world: its request sent, and on failure one more
    line on the console. *)
Lemma run_world
  (prompt : string) (image : option SourceImage.t) (w : World NetState) :
  exists net,
    let call :=
      match image with
      | Some img => CallGenerateContent (edit_request prompt img)
      | None => CallGenerateImages (generate_request prompt)
      end in
    snd (run prompt image w) = sent w call net
    \/ exists entry, snd (run prompt image w) = logged (sent w call net) entry.
Proof.
  destruct (attempt_world NetState ai readOfUndefined prompt image w)
    as [net Hw].
  exists net. cbv zeta.
  destruct (run_cases NetState ai readOfUndefined prompt image w)
    as [(u & _ & Hr)|[(m & _ & Hr)|(v & _ & Hr)]];
    rewrite Hr, Hw; cbn [snd]; [now left | right | right]; eexists; reflexivity.
Qed.

(** X1.  Whatever the provider answers, a value the call returns is a data
    URL, [data:] then a media type then [;base64,] then a payload; without
    an image the media type is [image/jpeg] and the payload is not empty. *)
Theorem generateOrEditImage_returns_data_url
  (prompt : string) (image : option SourceImage.t) (w : World NetState)
  (url : string) :
  fst (run prompt image w) = Returned url ->
  exists mediaType bytes,
    url = dataUrl mediaType bytes /\
    (image = None -> mediaType = "image/jpeg" /\ bytes <> "").
Proof.
  rewrite returned_by_attempt. apply attempt_returns_data_url.
Qed.

(** X2.  With an image, and once the provider has answered, the call returns
    exactly when the parts of the first candidate hold an [inlineData]
    object; every other response makes it throw. *)
Theorem edit_returns_iff
  (prompt : string) (image : SourceImage.t) (w : World NetState)
  (response : GenerateContentResponse.t) (net : NetState) :
  generateContent ai (edit_request prompt image) (network w)
    = (Returned response, net) ->
  (exists url, fst (run prompt (Some image) w) = Returned url) <->
  (exists c cs ct ps,
      GenerateContentResponse.candidates response = Some (c :: cs) /\
      Candidate.content c = Some ct /\
      Content.parts ct = Some ps /\
      Exists (fun p => Part.inlineData p <> None) ps).
Proof.
  intros H. split.
  - intros [url Hurl]. apply returned_by_attempt in Hurl.
    rewrite (attempt_edit_settled _ _ _ _ _ _ _ _ H) in Hurl. cbn [fst] in Hurl.
    destruct (GenerateContentResponse.candidates response)
      as [[|c cs]|] eqn:Hc; try discriminate.
    cbn in Hurl.
    destruct (Candidate.content c) as [ct|] eqn:Hct; [|discriminate].
    cbn in Hurl.
    destruct (Content.parts ct) as [ps|] eqn:Hps; [|discriminate].
    cbn in Hurl.
    destruct (find has_inline ps) as [p|] eqn:Hfind; [|discriminate].
    exists c, cs, ct, ps. repeat split; try assumption.
    apply find_some in Hfind. destruct Hfind as [Hin Hp].
    apply Exists_exists. exists p. split; [assumption|].
    cbn beta. destruct (Part.inlineData p); [discriminate | discriminate Hp].
  - intros (c & cs & ct & ps & Hc & Hct & Hps & Hsome).
    destruct (find_some_inline ps Hsome) as (p & b & Hfind & Hp).
    eexists. apply returned_by_attempt.
    rewrite (attempt_edit_settled _ _ _ _ _ _ _ _ H).
    rewrite (edit_parts_of_first_candidate _ _ _ _ _ Hc Hct Hps).
    rewrite Hfind. cbn [opt_chain]. now rewrite Hp.
Qed.

(** X3.  Without an image, and once the provider has answered, the call
    returns exactly when the first generated image has an [image] object
    with non-empty [imageBytes]; every other response makes it throw. *)
Theorem generate_returns_iff
  (prompt : string) (w : World NetState)
  (response : GenerateImagesResponse.t) (net : NetState) :
  generateImages ai (generate_request prompt) (network w)
    = (Returned response, net) ->
  (exists url, fst (run prompt None w) = Returned url) <->
  (exists first rest img P,
      GenerateImagesResponse.generatedImages response = Some (first :: rest) /\
      GeneratedImage.image first = Some img /\
      Image.imageBytes img = Some P /\
      P <> "").
Proof.
  intros H. split.
  - intros [url Hurl]. apply returned_by_attempt in Hurl.
    rewrite (attempt_generate_settled _ _ _ _ _ _ _ H) in Hurl.
    cbn [fst] in Hurl.
    destruct (GenerateImagesResponse.generatedImages response)
      as [[|g gs]|]; try discriminate.
    destruct (GeneratedImage.image g) as [img|] eqn:Himg; [|discriminate].
    destruct (Image.imageBytes img) as [P|] eqn:HP; cbn in Hurl;
      [|discriminate].
    destruct (P =? "") eqn:HE; cbn in Hurl; [discriminate|].
    exists g, gs, img, P. repeat split; try assumption.
    now apply String.eqb_neq.
  - intros (g & gs & img & P & Hlist & Himg & HP & Hne).
    apply String.eqb_neq in Hne.
    eexists. apply returned_by_attempt.
    rewrite (attempt_generate_settled _ _ _ _ _ _ _ H), Hlist, Himg, HP.
    cbn [truthy_string]. now rewrite Hne.
Qed.

End AdapterMore.

(** ** The upload *)

Lemma second_piece_of_data_url (M B : string) :
  Forall (fun c => c <> ","%char) (list_ascii_of_string M) ->
  Forall (fun c => c <> ","%char) (list_ascii_of_string B) ->
  index1 (split "," (dataUrl M B)) = Some B.
Proof.
  intros HM HB.
  rewrite dataUrl_cut.
  rewrite (split_at_first_separator _ _ _ (dataUrl_header_without_comma M HM)).
  now rewrite (split_without_separator _ _ HB).
Qed.

(** X4.  [reader.onloadend] takes the payload back out of a data URL: for a
    result [data:M;base64,B] with no comma in [M] or [B], the stored image
    has [B] for its data, the whole URL for its preview, and the type of the
    file, not [M], for its media type. *)
Theorem onloadend_recovers_payload
  (readOfNull : string -> string) (file : File.t) (M B : string) :
  Forall (fun c => c <> ","%char) (list_ascii_of_string M) ->
  Forall (fun c => c <> ","%char) (list_ascii_of_string B) ->
  App.onloadend readOfNull file (Some (dataUrl M B)) =
    App.Stored {| UploadedImage.data := B;
                  UploadedImage.mimeType := File.type file;
                  UploadedImage.preview := dataUrl M B |}.
Proof.
  intros HM HB. unfold App.onloadend.
  now rewrite (second_piece_of_data_url M B HM HB).
Qed.

(** A result with a comma always stores an image with data; the data stops
    at the second comma. *)
Lemma onloadend_with_comma
  (readOfNull : string -> string) (file : File.t) (a b : string) :
  Forall (fun c => c <> ","%char) (list_ascii_of_string a) ->
  exists data,
    App.onloadend readOfNull file (Some (a ++ String "," b)) =
      App.Stored {| UploadedImage.data := data;
                    UploadedImage.mimeType := File.type file;
                    UploadedImage.preview := a ++ String "," b |}.
Proof.
  intros Ha. unfold App.onloadend.
  rewrite (split_at_first_separator _ _ _ Ha).
  destruct (split "," b) as [|piece pieces] eqn:Hb.
  - now apply split_nonempty in Hb.
  - now exists piece.
Qed.

Section AppFacts.

Variable NetState : Type.
Variable ai : GoogleGenAI NetState.
Variable readOfUndefined : string -> string.
Variable readOfNull : string -> string.

Local Abbreviation fire := (App.fire ai readOfUndefined readOfNull).
Local Abbreviation run_events :=
  (App.run_events ai readOfUndefined readOfNull).
Local Abbreviation reachable := (App.reachable ai readOfUndefined readOfNull).
Local Abbreviation blank s :=
  (Forall (fun c => is_whitespace c = true) (list_ascii_of_string s)).
Local Abbreviation failed :=
  "Failed to generate content. Please try again. Error: ".
Local Abbreviation invalid_file :=
  "Please upload a valid image file (e.g., PNG, JPG, WEBP).".
Local Abbreviation unknown :=
  "An unknown error occurred while generating the content.".

(** The request a click sends from state [s]. *)
Local Abbreviation request_from s :=
  (match App.uploadedImage s with
   | Some u =>
       CallGenerateContent
         (edit_request (App.prompt s)
            {| SourceImage.data := UploadedImage.data u;
               SourceImage.mimeType := UploadedImage.mimeType u |})
   | None => CallGenerateImages (generate_request (App.prompt s))
   end).

(** ** The click *)


Lemma returns_early_is_disabled (s : App.State) :
  App.handleGenerateOrEdit_returns_early s = App.buttonDisabled s.
Proof.
  unfold App.handleGenerateOrEdit_returns_early, App.buttonDisabled.
  apply orb_comm.
Qed.


Lemma click_enabled (c : App.Config NetState) :
  App.buttonDisabled (App.state c) = false ->
  exists settled net,
    fst (generateOrEditImage ai readOfUndefined (App.prompt (App.state c))
           (App.imageToEdit (App.state c)) (App.world c)) = settled /\
    fire App.Click c =
      Some {| App.state := App.handleGenerateOrEdit_before (App.state c);
              App.reading := App.reading c;
              App.awaiting := (App.awaiting c ++ [settled])%list;
              App.reported := App.reported c;
              App.uncaught := App.uncaught c;
              App.world :=
                snd (generateOrEditImage ai readOfUndefined
                       (App.prompt (App.state c))
                       (App.imageToEdit (App.state c)) (App.world c)) |} /\
    requests
      (snd (generateOrEditImage ai readOfUndefined (App.prompt (App.state c))
              (App.imageToEdit (App.state c)) (App.world c)))
    = (requests (App.world c) ++ [request_from (App.state c)])%list /\
    network
      (snd (generateOrEditImage ai readOfUndefined (App.prompt (App.state c))
              (App.imageToEdit (App.state c)) (App.world c))) = net.
Proof.
  intros Hd. rewrite <- returns_early_is_disabled in Hd.
  eexists _, _. split; [reflexivity|]. split; [|split; [|reflexivity]].
  - cbn. rewrite Hd.
    now destruct (generateOrEditImage _ _ _ _ _).
  - destruct (run_world NetState ai readOfUndefined
                (App.prompt (App.state c)) (App.imageToEdit (App.state c))
                (App.world c)) as [net [Hw|[entry Hw]]];
      rewrite Hw; unfold App.imageToEdit;
      now destruct (App.uploadedImage (App.state c)).
Qed.


(** X6.  A click on the enabled button sends exactly one request: the edit
    request with the data and media type of the uploaded image when there is
    one, the generation request otherwise, and in both the prompt as it
    stands in the state, not trimmed.  The state then shows the call as
    pending, with no error and no image. *)
Theorem click_sends_one_request (c : App.Config NetState) :
  App.buttonDisabled (App.state c) = false ->
  exists c',
    fire App.Click c = Some c' /\
    requests (App.world c')
    = (requests (App.world c) ++ [request_from (App.state c)])%list /\
    length (App.awaiting c') = S (length (App.awaiting c)) /\
    App.isLoading (App.state c') = true /\
    App.error (App.state c') = None /\
    App.generatedImageUrl (App.state c') = None /\
    App.prompt (App.state c') = App.prompt (App.state c) /\
    App.uploadedImage (App.state c') = App.uploadedImage (App.state c).
Proof.
  intros Hd.
  destruct (click_enabled c Hd) as (settled & net & _ & Hf & Hreq & _).
  eexists. split; [exact Hf|]. cbn.
  split; [exact Hreq|].
  rewrite length_app. cbn. split; [lia|]. repeat split.
Qed.

(** ** What holds in every configuration the component can reach *)




Lemma after_not_loading (settled : Outcome string) (s : App.State) :
  App.isLoading (App.handleGenerateOrEdit_after settled s) = false.
Proof. now destruct settled. Qed.





Local Abbreviation image_type t := (startsWith t "image/" = true).

(** A request made of a prompt that is not blank and, for an edit, of an
    image whose media type starts with [image/]. *)
Local Abbreviation well_formed call :=
  (match call with
   | CallGenerateContent params =>
       exists prompt image,
         params = edit_request prompt image /\
         ~ blank prompt /\
         image_type (SourceImage.mimeType image)
   | CallGenerateImages params =>
       exists prompt, params = generate_request prompt /\ ~ blank prompt
   end).


(** What a call can deliver to the handler. *)
Local Abbreviation delivered settled :=
  (match settled with
   | Returned url => exists mediaType bytes, url = dataUrl mediaType bytes
   | Threw e =>
       (exists reason, e = ErrorInstance ("Gemini API Error: " ++ reason))
       \/ e = ErrorInstance unknown
   end).








(** ** Whole runs *)

(** X11.  A click on the enabled button followed by the return of the call,
    nothing being awaited before: [isLoading] is cleared, prompt and upload
    are untouched, and either the state holds the returned data URL with no
    error and nothing is logged, or it holds no image and the error text
    made of the adapter's message, the adapter has logged the original
    exception once and the handler has reported the wrapped one. *)
Theorem click_then_settle (c : App.Config NetState) :
  App.buttonDisabled (App.state c) = false ->
  App.awaiting c = [] ->
  exists c',
    run_events [App.Click; App.Settle] c = Some c' /\
    App.isLoading (App.state c') = false /\
    App.awaiting c' = [] /\
    App.prompt (App.state c') = App.prompt (App.state c) /\
    App.uploadedImage (App.state c') = App.uploadedImage (App.state c) /\
    ((exists mediaType bytes,
         App.generatedImageUrl (App.state c')
           = Some (dataUrl mediaType bytes) /\
         App.error (App.state c') = None /\
         App.reported c' = App.reported c /\
         console (App.world c') = console (App.world c))
     \/
     (exists text original,
         App.generatedImageUrl (App.state c') = None /\
         App.error (App.state c') = Some (failed ++ text) /\
         App.reported c' = (App.reported c ++ [ErrorInstance text])%list /\
         console (App.world c') =
           (console (App.world c) ++
              [("Error generating content with Gemini API:", original)])%list /\
         ((exists reason,
              original = ErrorInstance reason /\
              text = "Gemini API Error: " ++ reason)
          \/ (exists v, original = NonError v /\ text = unknown)))).
Proof.
  intros Hd Hnone.
  destruct (click_enabled c Hd) as (settled & net & Hs & Hf & _ & _).
  cbn [App.run_events]. rewrite Hf. cbn. rewrite Hnone. cbn.
  eexists. split; [reflexivity|]. cbn.
  split; [apply after_not_loading|]. split; [reflexivity|].
  split; [now destruct settled|]. split; [now destruct settled|].
  destruct (attempt_world NetState ai readOfUndefined
              (App.prompt (App.state c)) (App.imageToEdit (App.state c))
              (App.world c)) as [net' Hw].
  destruct (run_cases NetState ai readOfUndefined
              (App.prompt (App.state c)) (App.imageToEdit (App.state c))
              (App.world c))
    as [(url & Ha & Hr)|[(m & Ha & Hr)|(v & Ha & Hr)]];
    rewrite Hr in Hs |- *; cbn in Hs; subst settled; rewrite Hw; cbn.
  - left.
    destruct (attempt_returns_data_url _ _ _ _ _ _ _ Ha) as (mt & b & -> & _).
    exists mt, b. repeat split. apply app_nil_r.
  - right. exists ("Gemini API Error: " ++ m), (ErrorInstance m).
    repeat split. left. now exists m.
  - right. exists unknown, (NonError v).
    repeat split. right. now exists v.
Qed.

Lemma remove_nth_last {A : Type} (xs : list A) (x : A) :
  App.remove_nth (length xs) (xs ++ [x]) = xs.
Proof.
  induction xs as [|y xs IH]; cbn; [reflexivity|]. now rewrite IH.
Qed.

Lemma nth_error_last {A : Type} (xs : list A) (x : A) :
  nth_error (xs ++ [x]) (length xs) = Some x.
Proof.
  induction xs as [|y xs IH]; cbn; [reflexivity | exact IH].
Qed.

(** X12.  From the file to the provider: when the user picks a file whose
    type starts with [image/], its reader ends with [data:M;base64,B]
    (no comma in [M] or [B]) and the user clicks the enabled button, the one
    request sent is the edit request with [B] for the image data, the type
    of the file for its media type, and the prompt of the state. *)
Theorem upload_then_click
  (c : App.Config NetState) (f : File.t) (others : list File.t)
  (M B : string) :
  startsWith (File.type f) "image/" = true ->
  Forall (fun x => x <> ","%char) (list_ascii_of_string M) ->
  Forall (fun x => x <> ","%char) (list_ascii_of_string B) ->
  App.buttonDisabled (App.state c) = false ->
  exists c',
    run_events
      [ App.Pick (Some (f :: others));
        App.LoadEnd (length (App.reading c)) (Some (dataUrl M B));
        App.Click ] c = Some c' /\
    requests (App.world c') =
      (requests (App.world c) ++
         [CallGenerateContent
            (edit_request (App.prompt (App.state c))
               {| SourceImage.data := B;
                  SourceImage.mimeType := File.type f |})])%list /\
    App.uploadedImage (App.state c') =
      Some {| UploadedImage.data := B;
              UploadedImage.mimeType := File.type f;
              UploadedImage.preview := dataUrl M B |} /\
    App.reading c' = App.reading c.
Proof.
  intros Hf HM HB Hd.
  set (c1 := {| App.state := App.setError None (App.state c);
                App.reading := (App.reading c ++ [f])%list;
                App.awaiting := App.awaiting c;
                App.reported := App.reported c;
                App.uncaught := App.uncaught c;
                App.world := App.world c |}).
  set (c2 := {| App.state :=
                  App.setUploadedImage
                    (Some {| UploadedImage.data := B;
                             UploadedImage.mimeType := File.type f;
                             UploadedImage.preview := dataUrl M B |})
                    (App.state c1);
                App.reading := App.reading c;
                App.awaiting := App.awaiting c;
                App.reported := App.reported c;
                App.uncaught := App.uncaught c;
                App.world := App.world c |}).
  assert (H1 : fire (App.Pick (Some (f :: others))) c = Some c1).
  { cbn. unfold App.handleImageUpload. cbn [opt_chain index0].
    now rewrite Hf. }
  assert (H2 : fire (App.LoadEnd (length (App.reading c))
                       (Some (dataUrl M B))) c1 = Some c2).
  { unfold App.fire, c2, c1. cbn [App.reading App.state].
    rewrite nth_error_last. unfold App.onloadend.
    rewrite (second_piece_of_data_url M B HM HB).
    now rewrite remove_nth_last. }
  assert (Hd2 : App.buttonDisabled (App.state c2) = false) by exact Hd.
  destruct (click_enabled c2 Hd2) as (settled & net & _ & Hc & Hreq & _).
  cbn [App.run_events]. rewrite H1, H2, Hc.
  eexists. split; [reflexivity|]. cbn in Hreq |- *.
  split; [exact Hreq|]. now split.
Qed.

End AppFacts.

(** * The component and the adapter on simulated sessions *)

Lemma generateOrEditImage_returns_data_url_witness :
  exists mediaType bytes,
    "data:image/jpeg;base64,cG5n" = dataUrl mediaType bytes /\
    (@None SourceImage.t = None -> mediaType = "image/jpeg" /\ bytes <> "").
Proof.
  apply (generateOrEditImage_returns_data_url nat demo_ai v8_readOfUndefined
           "a red kite" None fresh_world "data:image/jpeg;base64,cG5n").
  reflexivity.
Defined.

Lemma edit_returns_iff_witness :
  exists url,
    fst (generateOrEditImage demo_ai v8_readOfUndefined "make the sky red"
           (Some photo) fresh_world) = Returned url.
Proof.
  apply (proj2 (edit_returns_iff nat demo_ai v8_readOfUndefined
                  "make the sky red" photo fresh_world _ _ eq_refl)).
  eexists _, _, _, _. repeat split.
  constructor. discriminate.
Defined.

Lemma generate_returns_iff_witness :
  exists url,
    fst (generateOrEditImage demo_ai v8_readOfUndefined "a red kite"
           None fresh_world) = Returned url.
Proof.
  apply (proj2 (generate_returns_iff nat demo_ai v8_readOfUndefined
                  "a red kite" fresh_world _ _ eq_refl)).
  eexists _, _, _, _. repeat split. discriminate.
Defined.

Lemma onloadend_recovers_payload_witness :
  App.onloadend v8_readOfNull png_file (Some "data:image/png;base64,aGVsbG8=")
  = App.Stored {| UploadedImage.data := "aGVsbG8=";
                  UploadedImage.mimeType := "image/png";
                  UploadedImage.preview := "data:image/png;base64,aGVsbG8=" |}.
Proof.
  apply (onloadend_recovers_payload v8_readOfNull png_file
           "image/png" "aGVsbG8=");
    repeat constructor; discriminate.
Defined.

Lemma click_sends_one_request_witness :
  exists c',
    App.fire demo_ai v8_readOfUndefined v8_readOfNull App.Click (App.start 0)
      = Some c' /\
    requests (App.world c')
      = [CallGenerateImages (generate_request App.initialPrompt)] /\
    App.isLoading (App.state c') = true.
Proof.
  destruct (click_sends_one_request nat demo_ai v8_readOfUndefined
              v8_readOfNull (App.start 0) eq_refl)
    as (c' & Hf & Hreq & _ & Hl & _).
  exists c'. repeat split; assumption.
Defined.





Lemma click_then_settle_witness :
  exists c',
    session demo_ai [App.Click; App.Settle] = Some c' /\
    App.isLoading (App.state c') = false /\
    App.awaiting c' = [].
Proof.
  destruct (click_then_settle nat demo_ai v8_readOfUndefined v8_readOfNull
              (App.start 0) eq_refl eq_refl)
    as (c' & Hrun & Hl & Ha & _).
  exists c'. repeat split; assumption.
Defined.

Lemma upload_then_click_witness :
  exists c',
    session demo_ai
      [ App.Pick (Some [png_file]);
        App.LoadEnd 0 (Some "data:image/png;base64,aGVsbG8=");
        App.Click ] = Some c' /\
    requests (App.world c') =
      [CallGenerateContent
         (edit_request App.initialPrompt
            {| SourceImage.data := "aGVsbG8=";
               SourceImage.mimeType := "image/png" |})].
Proof.
  destruct (upload_then_click nat demo_ai v8_readOfUndefined v8_readOfNull
              (App.start 0) png_file [] "image/png" "aGVsbG8=")
    as (c' & Hrun & Hreq & _);
    try reflexivity; try (repeat constructor; discriminate).
  exists c'. split; assumption.
Defined.
